(** * SentinelAI dashboard: the issue classifier, the explanation helper
      and the analysis request of [src/App.jsx]

    The component [App] keeps five state variables ([file], [score],
    [issues], [activeFeature], [loading]) and three closures over them:
    [analyzeFile], [getIssuesForFeature] and [explainIssue].  They are
    embedded here over a small model of JavaScript values, with an error
    monad for the operations that can throw. *)

From Stdlib Require Import String Ascii List ZArith Bool Lia.
Import ListNotations.

Local Open Scope string_scope.
Local Open Scope Z_scope.

Set Warnings "-register-all".

(** ** JavaScript values

    What [JSON.parse] can produce, and [undefined] (a missing property).
    Numbers of the model are the integers; strings are sequences of code
    units below U+0100, one [ascii] per code unit.  An object is the list of
    its own properties. *)

Inductive value : Type :=
  | VUndefined
  | VNull
  | VBool (b : bool)
  | VNum (n : Z)
  | VStr (s : string)
  | VArr (elems : list value)
  | VObj (props : list (string * value)).

(** ** Exceptions *)

Inductive exn : Type :=
  | TypeError
  | NetworkError
  | SyntaxError.

Inductive result (A : Type) : Type :=
  | Ok (a : A)
  | Throw (e : exn).

Arguments Ok {A} a.
Arguments Throw {A} e.

Definition bind {A B : Type} (c : result A) (k : A -> result B) : result B :=
  match c with
  | Ok a => k a
  | Throw e => Throw e
  end.

Notation "x <- c ;; k" := (bind c (fun x => k))
  (at level 61, c at next level, right associativity).

(** ** Operators and built-ins used by the component *)

(** [typeof v] *)
Definition typeof (v : value) : string :=
  match v with
  | VUndefined => "undefined"
  | VNull => "object"
  | VBool _ => "boolean"
  | VNum _ => "number"
  | VStr _ => "string"
  | VArr _ => "object"
  | VObj _ => "object"
  end.

(** [Array.isArray(v)] *)
Definition Array_isArray (v : value) : bool :=
  match v with
  | VArr _ => true
  | _ => false
  end.

(** [!v] is [negb (ToBoolean v)]. *)
Definition ToBoolean (v : value) : bool :=
  match v with
  | VUndefined => false
  | VNull => false
  | VBool b => b
  | VNum n => negb (n =? 0)
  | VStr s => negb (s =? "")%string
  | VArr _ => true
  | VObj _ => true
  end.

(** [v === w] where [w] is a string literal, [null] or a number literal. *)
Definition strict_eq_str (v : value) (w : string) : bool :=
  match v with
  | VStr s => (s =? w)%string
  | _ => false
  end.

Definition strict_eq_null (v : value) : bool :=
  match v with
  | VNull => true
  | _ => false
  end.

Definition strict_eq_num (v : value) (k : Z) : bool :=
  match v with
  | VNum n => n =? k
  | _ => false
  end.

Fixpoint lookup (p : string) (props : list (string * value)) : value :=
  match props with
  | [] => VUndefined
  | (k, v) :: rest => if (k =? p)%string then v else lookup p rest
  end.

(** [v.p] for the property names the component reads ([score], [issues],
    [length]): reading a property of [null] or [undefined] throws; an array
    and a string have a [length]; a primitive has no other property. *)
Definition Get (v : value) (p : string) : result value :=
  match v with
  | VUndefined | VNull => Throw TypeError
  | VObj props => Ok (lookup p props)
  | VArr elems =>
      if (p =? "length")%string then Ok (VNum (Z.of_nat (List.length elems)))
      else Ok VUndefined
  | VStr s =>
      if (p =? "length")%string then Ok (VNum (Z.of_nat (String.length s)))
      else Ok VUndefined
  | VBool _ | VNum _ => Ok VUndefined
  end.

(** *** Strings *)

(** [String.prototype.toLowerCase] on one code unit below U+0100: A-Z,
    U+00C0-U+00D6 and U+00D8-U+00DE move up by 32. *)
Definition lower_unit (c : ascii) : ascii :=
  let n := N_of_ascii c in
  if ((65 <=? n) && (n <=? 90) || (192 <=? n) && (n <=? 214)
      || (216 <=? n) && (n <=? 222))%N
  then ascii_of_N (n + 32)
  else c.

Fixpoint toLowerCase (s : string) : string :=
  match s with
  | EmptyString => EmptyString
  | String c rest => String (lower_unit c) (toLowerCase rest)
  end.

(** [s.includes(w)]: [w] occurs in [s] at some position. *)
Fixpoint includes (s w : string) : bool :=
  String.prefix w s ||
  match s with
  | EmptyString => false
  | String _ rest => includes rest w
  end.

(** [v.toLowerCase()]: only a string has the method. *)
Definition call_toLowerCase (v : value) : result string :=
  match v with
  | VStr s => Ok (toLowerCase s)
  | _ => Throw TypeError
  end.

(** *** Arrays *)

(** The loop of [Array.prototype.filter] and of [Array.prototype.some] with
    a callback that may throw: elements are visited in order, an exception
    of the callback ends the loop, and [some] stops at the first [true]. *)
Fixpoint filter_loop {A : Type} (f : A -> result bool) (l : list A)
  : result (list A) :=
  match l with
  | [] => Ok []
  | x :: rest =>
      keep <- f x ;;
      kept <- filter_loop f rest ;;
      Ok (if keep then x :: kept else kept)
  end.

Fixpoint some_loop {A : Type} (f : A -> result bool) (l : list A)
  : result bool :=
  match l with
  | [] => Ok false
  | x :: rest =>
      hit <- f x ;;
      if hit then Ok true else some_loop f rest
  end.

(** [v.filter(f)] and [v.some(f)]: only an array has the methods. *)
Definition call_filter (v : value) (f : value -> result bool)
  : result (list value) :=
  match v with
  | VArr elems => filter_loop f elems
  | _ => Throw TypeError
  end.

Definition call_some (v : value) (f : value -> result bool) : result bool :=
  match v with
  | VArr elems => some_loop f elems
  | _ => Throw TypeError
  end.

(** *** Conversion to a primitive *)

Definition has_own (p : string) (props : list (string * value)) : bool :=
  existsb (fun kv => (fst kv =? p)%string) props.

(** ToPrimitive, which [<=] applies to an operand that is an object or an
    array, throws a TypeError when neither [valueOf] nor [toString] gives a
    primitive.  A property of a parsed value is never a function.  So an
    object with an own [toString] property has no callable [toString], and
    its [valueOf] (own: not callable; inherited: returns the object itself)
    gives no primitive either: the conversion throws.  Without an own
    [toString] the inherited one gives a string.  An array is converted by
    the inherited [toString], which joins the conversions of its elements
    and so throws when one of them does. *)
Fixpoint ToPrimitive_throws (v : value) : bool :=
  match v with
  | VObj props => has_own "toString" props
  | VArr elems => existsb ToPrimitive_throws elems
  | _ => false
  end.

(** ** The component *)

Section App.

(** [v <= 35] for an operand that is a string, or an array or an object
    whose conversion to a primitive gives a string: the comparison converts
    that string to a number (StringToNumber); the outcome is left open. *)
Variable coerced_le_35 : value -> bool.

(** [v <= 35]: [undefined] converts to NaN, [null] to 0, a boolean to 0 or
    1; an object or an array is first converted to a primitive, which can
    throw. *)
Definition le_35 (v : value) : result bool :=
  match v with
  | VUndefined => Ok false
  | VNull => Ok true
  | VBool _ => Ok true
  | VNum n => Ok (n <=? 35)
  | VStr _ => Ok (coerced_le_35 v)
  | VArr _ | VObj _ =>
      if ToPrimitive_throws v then Throw TypeError
      else Ok (coerced_le_35 v)
  end.

Definition security_words : list string :=
  ["secret"; "eval"; "exec"; "insecure"].

(** [(i) => words.some((w) => i.toLowerCase().includes(w))] *)
Definition mentions_any (words : list string) (i : value) : result bool :=
  some_loop (fun w => t <- call_toLowerCase i ;; Ok (includes t w)) words.

(** [(i) => i.toLowerCase().includes("complex")] *)
Definition mentions_complex (i : value) : result bool :=
  t <- call_toLowerCase i ;; Ok (includes t "complex").

(** [getIssuesForFeature(feature)], lines 52-93; [issues] and [score] are
    the state variables the closure reads. *)
Definition getIssuesForFeature (issues score : value) (feature : value)
  : result (list value) :=
  nothing <- (if negb (Array_isArray issues) then Ok true
              else len <- Get issues "length" ;; Ok (strict_eq_num len 0)) ;;
  if nothing then Ok []
  else
    safeIssues <- call_filter issues
                    (fun i => Ok (typeof i =? "string")%string) ;;
    if strict_eq_str feature "security" then
      low <- (if negb (strict_eq_null score) then le_35 score
              else Ok false) ;;
      if low then
        Ok [VStr "Potential security vulnerability detected due to unsafe coding patterns"]
      else
        call_filter (VArr safeIssues) (mentions_any security_words)
    else if strict_eq_str feature "complexity" then
      found <- call_some (VArr safeIssues) mentions_complex ;;
      if found then call_filter (VArr safeIssues) mentions_complex
      else Ok [VStr "High cyclomatic complexity detected"]
    else if strict_eq_str feature "dependency" then
      Ok [VStr "Unused or risky dependency detected"]
    else if strict_eq_str feature "refactor" then
      Ok [VStr "Code can be refactored to improve readability"]
    else Ok [].

(** The spec's name and argument order for the same function. *)
Definition classify (lens issues score : value) : result (list value) :=
  getIssuesForFeature issues score lens.

End App.

(** [explainIssue(issue)], lines 102-125. *)
Definition explainIssue (issue : value) : result string :=
  text <- call_toLowerCase issue ;;
  if includes text "eval" || includes text "exec" then
    Ok "This allows execution of arbitrary code and can be exploited by attackers."
  else if includes text "secret" || includes text "password"
          || includes text "token" then
    Ok "Hardcoded secrets can leak credentials and should be stored securely."
  else if includes text "complex" then
    Ok "High complexity makes code harder to understand, test, and maintain."
  else if includes text "dependency" then
    Ok "Unused or risky dependencies increase attack surface and maintenance cost."
  else if includes text "refactor" then
    Ok "Refactoring improves readability and long-term maintainability."
  else
    Ok "This issue may negatively affect security or code quality.".


(** *** The analysis request *)

Record state : Type := mkState {
  file : value;
  score : value;
  issues : value;
  activeFeature : value;
  loading : bool
}.

Definition setScore (v : value) (st : state) : state :=
  mkState (file st) v (issues st) (activeFeature st) (loading st).

Definition setIssues (v : value) (st : state) : state :=
  mkState (file st) (score st) v (activeFeature st) (loading st).

Definition setActiveFeature (v : value) (st : state) : state :=
  mkState (file st) (score st) (issues st) v (loading st).

Definition setLoading (b : bool) (st : state) : state :=
  mkState (file st) (score st) (issues st) (activeFeature st) b.

(** What the backend does with the request: [fetch] rejects, or it resolves
    and [res.json()] rejects, or [res.json()] resolves to [data]. *)
Inductive response : Type :=
  | FetchRejects
  | JsonRejects
  | Body (data : value).

(** What the component does to the outside: an [alert], and the call of
    [fetch], recorded with the state variables as the setters before the
    call leave them. *)
Inductive event : Type :=
  | Alert (msg : string)
  | Fetch (url : string) (body : value) (now : state).

(** [await fetch(...)] followed by [await res.json()], lines 34-39. *)
Definition await_json (r : response) : result value :=
  match r with
  | FetchRejects => Throw NetworkError
  | JsonRejects => Throw SyntaxError
  | Body data => Ok data
  end.

(** The [try] block, lines 33-41: the state it reaches and how it ends. *)
Definition try_block (r : response) (st : state) : state * result unit :=
  match await_json r with
  | Throw e => (st, Throw e)
  | Ok data =>
      match Get data "score" with
      | Throw e => (st, Throw e)
      | Ok sc =>
          let st := setScore sc st in
          match Get data "issues" with
          | Throw e => (st, Throw e)
          | Ok found =>
              if Array_isArray found then
                match Get data "issues" with
                | Throw e => (st, Throw e)
                | Ok arr => (setIssues arr st, Ok tt)
                end
              else (setIssues (VArr []) st, Ok tt)
          end
      end
  end.

(** [analyzeFile()], lines 19-47, run against the backend's response. *)
Definition analyzeFile (r : response) (st : state) : state * list event :=
  if negb (ToBoolean (file st)) then
    (st, [Alert "Please select a Python file first"])
  else
    let st := setLoading true st in
    let st := setIssues (VArr []) st in
    let st := setActiveFeature VNull st in
    let st := setScore VNull st in
    let request := Fetch "http://127.0.0.1:8000/analyze" (file st) st in
    let (st, outcome) := try_block r st in
    let caught :=
      match outcome with
      | Ok _ => []
      | Throw _ =>
          [Alert "Backend not reachable. Ensure FastAPI is running on port 8000."]
      end in
    (setLoading false st, request :: caught).

(** ** The specification's wording *)

Definition is_string (v : value) : bool :=
  match v with
  | VStr _ => true
  | _ => false
  end.

(** Step 1 of [classify]: drop every element that is not a string. *)
Definition sanitized (l : list value) : list value :=
  filter is_string l.

(** The lowercase text of a string contains at least one of [words]. *)
Definition text_contains_any (words : list string) (v : value) : bool :=
  match v with
  | VStr s => existsb (includes (toLowerCase s)) words
  | _ => false
  end.

Definition override_message : value :=
  VStr "Potential security vulnerability detected due to unsafe coding patterns".

Definition complexity_fallback : value :=
  VStr "High cyclomatic complexity detected".

Definition dependency_stub : value :=
  VStr "Unused or risky dependency detected".

Definition refactor_stub : value :=
  VStr "Code can be refactored to improve readability".

(** The test [score !== null && score <= 35], which only the security
    case evaluates; it throws when the comparison does. *)
Definition score_test (coerced_le_35 : value -> bool)
    (lens score : value) : result bool :=
  if strict_eq_str lens "security" && negb (strict_eq_null score)
  then le_35 coerced_le_35 score
  else Ok false.

(** Step 2 of [classify]: the rule of each lens on the sanitized issues,
    [low] being the outcome of the score test. *)
Definition lens_rule (low : bool) (lens : value) (safe : list value)
  : list value :=
  if strict_eq_str lens "security" then
    if low
    then [override_message]
    else filter (text_contains_any security_words) safe
  else if strict_eq_str lens "complexity" then
    match filter (text_contains_any ["complex"]) safe with
    | [] => [complexity_fallback]
    | found => found
    end
  else if strict_eq_str lens "dependency" then [dependency_stub]
  else if strict_eq_str lens "refactor" then [refactor_stub]
  else [].

(** The rule table of [explain], top to bottom. *)
Definition rule_table : list (list string * string) :=
  [ (["eval"; "exec"],
     "This allows execution of arbitrary code and can be exploited by attackers.");
    (["secret"; "password"; "token"],
     "Hardcoded secrets can leak credentials and should be stored securely.");
    (["complex"],
     "High complexity makes code harder to understand, test, and maintain.");
    (["dependency"],
     "Unused or risky dependencies increase attack surface and maintenance cost.");
    (["refactor"],
     "Refactoring improves readability and long-term maintainability.") ].

Definition generic_fallback : string :=
  "This issue may negatively affect security or code quality.".

(** First rule of the table with a keyword in the lowercased text. *)
Definition explain (issueText : string) : string :=
  match find (fun rule => existsb (includes (toLowerCase issueText)) (fst rule))
             rule_table with
  | Some rule => snd rule
  | None => generic_fallback
  end.

(** [sub] is [l] with some elements removed, the others in their order. *)
Inductive Subseq {A : Type} : list A -> list A -> Prop :=
  | Subseq_nil : Subseq [] []
  | Subseq_skip : forall x sub l, Subseq sub l -> Subseq sub (x :: l)
  | Subseq_keep : forall x sub l, Subseq sub l -> Subseq (x :: sub) (x :: l).


(** ** The rest of the component *)

(** The loop of [Array.prototype.map] with a callback that may throw. *)
Fixpoint map_loop {A B : Type} (f : A -> result B) (l : list A)
  : result (list B) :=
  match l with
  | [] => Ok []
  | x :: rest =>
      y <- f x ;;
      ys <- map_loop f rest ;;
      Ok (y :: ys)
  end.

(** What the issues panel shows under its heading: the paragraph "No
    issues found for this category", or one list item per issue with the
    issue and its explanation. *)
Inductive panel_body : Type :=
  | NoIssuesFound
  | IssueList (items : list (value * string)).

(** The UTF-16 code units of a string of the model. *)
Definition code_units (s : string) : list N :=
  map N_of_ascii (list_ascii_of_string s).

(** [String.prototype.toUpperCase] on one code unit below U+0100, as code
    units: a-z, U+00E0-U+00F6 and U+00F8-U+00FE move down by 32, U+00DF
    becomes "SS", and U+00FF and U+00B5 leave the range (U+0178,
    U+039C). *)
Definition upper_unit (c : ascii) : list N :=
  let n := N_of_ascii c in
  if ((97 <=? n) && (n <=? 122) || (224 <=? n) && (n <=? 246)
      || (248 <=? n) && (n <=? 254))%N
  then [(n - 32)%N]
  else if (n =? 223)%N then [83%N; 83%N]
  else if (n =? 255)%N then [376%N]
  else if (n =? 181)%N then [924%N]
  else [n].

Definition toUpperCase (s : string) : list N :=
  flat_map upper_unit (list_ascii_of_string s).

(** [s.charAt(0)] and [s.slice(1)] *)
Definition charAt_0 (s : string) : string :=
  match s with
  | EmptyString => EmptyString
  | String c _ => String c EmptyString
  end.

Definition slice_1 (s : string) : string :=
  match s with
  | EmptyString => EmptyString
  | String _ rest => rest
  end.

(** [v.charAt(0)]: only a string has the method. *)
Definition call_charAt_0 (v : value) : result string :=
  match v with
  | VStr s => Ok (charAt_0 s)
  | _ => Throw TypeError
  end.

(** [v.slice(1)] on a string; an array has a [slice] too, which gives an
    array and is not reached after [charAt]. *)
Definition call_slice_1 (v : value) : result string :=
  match v with
  | VStr s => Ok (slice_1 s)
  | _ => Throw TypeError
  end.

(** The heading of the panel before " Issues", lines 232-233:
    [activeFeature.charAt(0).toUpperCase() + activeFeature.slice(1)]. *)
Definition panel_heading (feature : value) : result (list N) :=
  first <- call_charAt_0 feature ;;
  rest <- call_slice_1 feature ;;
  Ok (toUpperCase first ++ code_units rest)%list.

Record panel : Type := mkPanel {
  heading : list N;
  body : panel_body
}.

Section Panel.

Variable coerced_le_35 : value -> bool.

(** [featureIssues], lines 95-97. *)
Definition featureIssues (st : state) : result (list value) :=
  if ToBoolean (activeFeature st)
  then getIssuesForFeature coerced_le_35 (issues st) (score st)
         (activeFeature st)
  else Ok [].

(** The issues panel, lines 229-253; [None] when [activeFeature] is falsy
    and no panel is rendered. *)
Definition issues_panel (st : state) : result (option panel) :=
  shown <- featureIssues st ;;
  if ToBoolean (activeFeature st) then
    title <- panel_heading (activeFeature st) ;;
    listed <- (if 0 <? Z.of_nat (List.length shown) then
                 items <- map_loop
                            (fun issue => insight <- explainIssue issue ;;
                                          Ok (issue, insight)) shown ;;
                 Ok (IssueList items)
               else Ok NoIssuesFound) ;;
    Ok (Some (mkPanel title listed))
  else Ok None.

End Panel.

(** The initial values of the state variables, lines 5-9. *)
Definition initial : state :=
  mkState VNull VNull (VArr []) VNull false.

(** [setFile(e.target.files[0])], line 156. *)
Definition setFile (v : value) (st : state) : state :=
  mkState v (score st) (issues st) (activeFeature st) (loading st).

(** The four feature buttons, lines 201-226. *)
Inductive button : Type :=
  | Security
  | Complexity
  | Dependency
  | Refactor.

Definition button_feature (b : button) : string :=
  match b with
  | Security => "security"
  | Complexity => "complexity"
  | Dependency => "dependency"
  | Refactor => "refactor"
  end.

(** The heading each button's panel is meant to carry. *)
Definition button_heading (b : button) : string :=
  match b with
  | Security => "Security"
  | Complexity => "Complexity"
  | Dependency => "Dependency"
  | Refactor => "Refactor"
  end.

(** [onClick] of a feature button. *)
Definition clickFeature (b : button) (st : state) : state :=
  setActiveFeature (VStr (button_feature b)) st.

(** [analyzeFile] is an async function: it runs to the call of [fetch]
    (lines 20-37), and what follows the two [await]s (lines 39-46) runs
    when the response is there. *)
Definition analyzeFile_submit (st : state) : state * list event :=
  if negb (ToBoolean (file st)) then
    (st, [Alert "Please select a Python file first"])
  else
    let st := setLoading true st in
    let st := setIssues (VArr []) st in
    let st := setActiveFeature VNull st in
    let st := setScore VNull st in
    (st, [Fetch "http://127.0.0.1:8000/analyze" (file st) st]).

Definition analyzeFile_settle (r : response) (st : state)
  : state * list event :=
  let (st, outcome) := try_block r st in
  (setLoading false st,
   match outcome with
   | Ok _ => []
   | Throw _ =>
       [Alert "Backend not reachable. Ensure FastAPI is running on port 8000."]
   end).

(** The page between two events: the state variables and the number of
    requests that have been sent and not answered yet.  The ANALYZE button
    stays enabled while a request is pending. *)
Record page : Type := mkPage {
  ui : state;
  pending : nat
}.

Inductive action : Type :=
  | SelectFile (f : value)
  | ClickFeature (b : button)
  | ClickAnalyze
  | Respond (r : response).

(** One event handler run to its end; a response needs a pending request. *)
Definition step (a : action) (pg : page) : option page :=
  match a with
  | SelectFile f => Some (mkPage (setFile f (ui pg)) (pending pg))
  | ClickFeature b => Some (mkPage (clickFeature b (ui pg)) (pending pg))
  | ClickAnalyze =>
      Some (mkPage (fst (analyzeFile_submit (ui pg)))
              (if ToBoolean (file (ui pg)) then S (pending pg)
               else pending pg))
  | Respond r =>
      match pending pg with
      | O => None
      | S waiting =>
          Some (mkPage (fst (analyzeFile_settle r (ui pg))) waiting)
      end
  end.

Fixpoint run (actions : list action) (pg : page) : option page :=
  match actions with
  | [] => Some pg
  | a :: rest =>
      match step a pg with
      | Some pg' => run rest pg'
      | None => None
      end
  end.

Definition start : page := mkPage initial O.

(** The responses on which the [try] block throws: [fetch] or [res.json()]
    rejects, or the body is [null] and reading [data.score] throws. *)
Definition fails (r : response) : bool :=
  match r with
  | FetchRejects | JsonRejects => true
  | Body VNull | Body VUndefined => true
  | Body _ => false
  end.

(** What line 41 stores for the [issues] field of the response. *)
Definition decoded_issues (found : value) : value :=
  if Array_isArray found then found else VArr [].

(** What holds of the page between any two events. *)
Definition page_ok (pg : page) : Prop :=
  Array_isArray (issues (ui pg)) = true
  /\ (activeFeature (ui pg) = VNull
      \/ exists b : button, activeFeature (ui pg) = VStr (button_feature b))
  /\ (loading (ui pg) = true -> (0 < pending pg)%nat).

(** ** Loops with a callback that does not throw *)

Section Loops.

Context {A : Type}.
Variable f : A -> result bool.
Variable p : A -> bool.

Lemma filter_loop_total (l : list A) :
  (forall x, In x l -> f x = Ok (p x)) ->
  filter_loop f l = Ok (filter p l).
Proof.
  induction l as [|x l IH]; intros Hf; simpl.
  - reflexivity.
  - rewrite (Hf x (or_introl eq_refl)). simpl.
    rewrite IH by (intros y Hy; apply Hf; right; exact Hy).
    simpl. destruct (p x); reflexivity.
Qed.

Lemma some_loop_total (l : list A) :
  (forall x, In x l -> f x = Ok (p x)) ->
  some_loop f l = Ok (existsb p l).
Proof.
  induction l as [|x l IH]; intros Hf; simpl.
  - reflexivity.
  - rewrite (Hf x (or_introl eq_refl)). simpl.
    destruct (p x); simpl.
    + reflexivity.
    + apply IH. intros y Hy. apply Hf. right. exact Hy.
Qed.

End Loops.

(** ** Lists *)

Lemma existsb_filter_nil {A : Type} (p : A -> bool) (l : list A) :
  existsb p l = false <-> filter p l = [].
Proof.
  induction l as [|x l IH]; simpl.
  - tauto.
  - destruct (p x); simpl.
    + split; discriminate.
    + exact IH.
Qed.

Lemma filter_Subseq {A : Type} (p : A -> bool) (l : list A) :
  Subseq (filter p l) l.
Proof.
  induction l as [|x l IH]; simpl.
  - constructor.
  - destruct (p x); constructor; exact IH.
Qed.

Lemma Subseq_trans {A : Type} (l1 l2 l3 : list A) :
  Subseq l1 l2 -> Subseq l2 l3 -> Subseq l1 l3.
Proof.
  intros H12 H23. revert l1 H12.
  induction H23 as [|x sub l H IH|x sub l H IH]; intros l1 H12.
  - exact H12.
  - constructor. apply IH. exact H12.
  - inversion H12; subst.
    + constructor. apply IH. assumption.
    + apply Subseq_keep. apply IH. assumption.
Qed.

(** ** Sanitization *)

Lemma typeof_string (v : value) :
  (typeof v =? "string")%string = is_string v.
Proof. destruct v; reflexivity. Qed.

Lemma safeIssues_sanitized (l : list value) :
  call_filter (VArr l) (fun i => Ok (typeof i =? "string")%string)
  = Ok (sanitized l).
Proof.
  simpl. unfold sanitized.
  apply filter_loop_total. intros x _. rewrite typeof_string. reflexivity.
Qed.

Lemma sanitized_strings (l : list value) :
  Forall (fun v => is_string v = true) (sanitized l).
Proof.
  apply Forall_forall. intros v Hv.
  apply filter_In in Hv. exact (proj2 Hv).
Qed.

Lemma mentions_any_string (words : list string) (v : value) :
  is_string v = true ->
  mentions_any words v = Ok (text_contains_any words v).
Proof.
  destruct v; try discriminate. intros _.
  unfold mentions_any. simpl.
  apply some_loop_total. reflexivity.
Qed.

Lemma mentions_complex_string (v : value) :
  is_string v = true ->
  mentions_complex v = Ok (text_contains_any ["complex"] v).
Proof.
  destruct v; try discriminate. intros _.
  unfold mentions_complex. simpl. rewrite orb_false_r. reflexivity.
Qed.

(** On sanitized issues the two filters and the [some] of the lenses run
    to their end. *)
Lemma security_filter_sanitized (l : list value) :
  call_filter (VArr (sanitized l)) (mentions_any security_words)
  = Ok (filter (text_contains_any security_words) (sanitized l)).
Proof.
  simpl. apply filter_loop_total. intros v Hv.
  apply mentions_any_string.
  exact (proj1 (Forall_forall _ _) (sanitized_strings l) v Hv).
Qed.

Lemma complexity_filter_sanitized (l : list value) :
  call_filter (VArr (sanitized l)) mentions_complex
  = Ok (filter (text_contains_any ["complex"]) (sanitized l)).
Proof.
  simpl. apply filter_loop_total. intros v Hv.
  apply mentions_complex_string.
  exact (proj1 (Forall_forall _ _) (sanitized_strings l) v Hv).
Qed.

Lemma complexity_some_sanitized (l : list value) :
  call_some (VArr (sanitized l)) mentions_complex
  = Ok (existsb (text_contains_any ["complex"]) (sanitized l)).
Proof.
  simpl. apply some_loop_total. intros v Hv.
  apply mentions_complex_string.
  exact (proj1 (Forall_forall _ _) (sanitized_strings l) v Hv).
Qed.

(** ** The classifier, by the shape of [issues] *)

Section Classifier.

Variable coerced_le_35 : value -> bool.

Lemma getIssuesForFeature_not_array (issues score feature : value) :
  Array_isArray issues = false ->
  getIssuesForFeature coerced_le_35 issues score feature = Ok [].
Proof.
  intros H. unfold getIssuesForFeature. rewrite H. reflexivity.
Qed.

Lemma getIssuesForFeature_empty (score feature : value) :
  getIssuesForFeature coerced_le_35 (VArr []) score feature = Ok [].
Proof. reflexivity. Qed.

(** With at least one element the guard of line 53 is passed, and the
    [switch] is the rule table on the sanitized issues. *)
Lemma getIssuesForFeature_nonempty (l : list value) (score feature : value) :
  l <> [] ->
  getIssuesForFeature coerced_le_35 (VArr l) score feature
  = (low <- score_test coerced_le_35 feature score ;;
     Ok (lens_rule low feature (sanitized l))).
Proof.
  intros Hl. destruct l as [|x l]; [congruence|].
  unfold getIssuesForFeature.
  change (bind (if negb (Array_isArray (VArr (x :: l))) then Ok true
                else len <- Get (VArr (x :: l)) "length" ;;
                     Ok (strict_eq_num len 0)) ?k)
    with (bind (Ok false) k) at 1.
  cbv beta iota delta [bind].
  rewrite safeIssues_sanitized.
  unfold lens_rule, score_test.
  destruct (strict_eq_str feature "security").
  { cbn [andb].
    destruct (if negb (strict_eq_null score) then le_35 coerced_le_35 score
              else Ok false) as [[|]|e].
    - reflexivity.
    - apply security_filter_sanitized.
    - reflexivity. }
  cbn [andb].
  destruct (strict_eq_str feature "complexity").
  { rewrite complexity_some_sanitized.
    destruct (existsb (text_contains_any ["complex"]) (sanitized (x :: l)))
      eqn:E.
    - rewrite complexity_filter_sanitized.
      destruct (filter (text_contains_any ["complex"]) (sanitized (x :: l)))
        eqn:F; [|reflexivity].
      apply existsb_filter_nil in F. congruence.
    - apply existsb_filter_nil in E. rewrite E. reflexivity. }
  destruct (strict_eq_str feature "dependency"); [reflexivity|].
  destruct (strict_eq_str feature "refactor"); reflexivity.
Qed.

(** The score test does not throw for a lens other than "security", nor for
    a score that converts to a primitive. *)
Lemma score_test_returns (lens score : value) :
  lens <> VStr "security" \/ ToPrimitive_throws score = false ->
  exists low : bool, score_test coerced_le_35 lens score = Ok low.
Proof.
  intros H. unfold score_test.
  destruct (strict_eq_str lens "security") eqn:Hs; cbn [andb].
  - destruct H as [H | H].
    + destruct lens; try discriminate. simpl in Hs.
      apply String.eqb_eq in Hs. subst. congruence.
    + destruct (negb (strict_eq_null score)); [|eauto].
      unfold le_35. rewrite H. destruct score; eauto.
  - eauto.
Qed.

Lemma score_test_other_lens (lens score : value) :
  strict_eq_str lens "security" = false ->
  score_test coerced_le_35 lens score = Ok false.
Proof. intros H. unfold score_test. rewrite H. reflexivity. Qed.

Lemma lens_rule_other_lens (low : bool) (lens : value) (safe : list value) :
  strict_eq_str lens "security" = false ->
  lens_rule low lens safe = lens_rule false lens safe.
Proof. intros H. unfold lens_rule. rewrite H. reflexivity. Qed.

Lemma lens_rule_strings (low : bool) (lens : value) (l : list value) :
  Forall (fun v => is_string v = true) (lens_rule low lens (sanitized l)).
Proof.
  assert (Hsub : forall p, Forall (fun v => is_string v = true)
                             (filter p (sanitized l))).
  { intros p. apply Forall_forall. intros v Hv. apply filter_In in Hv.
    exact (proj1 (Forall_forall _ _) (sanitized_strings l) v (proj1 Hv)). }
  unfold lens_rule.
  destruct (strict_eq_str lens "security").
  { destruct low.
    - repeat constructor.
    - apply Hsub. }
  destruct (strict_eq_str lens "complexity").
  { specialize (Hsub (text_contains_any ["complex"])).
    destruct (filter (text_contains_any ["complex"]) (sanitized l)).
    - repeat constructor.
    - exact Hsub. }
  destruct (strict_eq_str lens "dependency"); [repeat constructor|].
  destruct (strict_eq_str lens "refactor"); repeat constructor.
Qed.

End Classifier.

(** ** The security lens *)

(** C1, as the specification states it, fails: with a score of 20 and no
    issues the security lens returns the empty sequence, not the override
    message. *)
Lemma security_override_not_on_empty_issues :
  ~ (forall (coerced_le_35 : value -> bool) (l : list value) (n : Z),
        n <= 35 ->
        classify coerced_le_35 (VStr "security") (VArr l) (VNum n)
        = Ok [override_message]).
Proof.
  intros H.
  specialize (H (fun _ => false) [] 20 ltac:(lia)).
  discriminate H.
Qed.

(** C1, amended: for every integer score at most 35 and every issues
    sequence with at least one element, whatever the elements are, the
    security lens returns exactly the override message. *)
Theorem security_override_on_low_score
    (coerced_le_35 : value -> bool) (l : list value) (n : Z) :
  l <> [] ->
  n <= 35 ->
  classify coerced_le_35 (VStr "security") (VArr l) (VNum n)
  = Ok [override_message].
Proof.
  intros Hl Hn. unfold classify.
  rewrite getIssuesForFeature_nonempty by exact Hl.
  unfold lens_rule. simpl.
  rewrite (proj2 (Z.leb_le n 35) Hn). reflexivity.
Qed.

Lemma security_override_on_low_score_witness :
  classify (fun _ => false) (VStr "security")
    (VArr [VNull; VStr "complex loop detected"]) (VNum 20)
  = Ok [VStr "Potential security vulnerability detected due to unsafe coding patterns"].
Proof.
  apply (security_override_on_low_score (fun _ => false)
           [VNull; VStr "complex loop detected"] 20).
  - discriminate.
  - lia.
Defined.

(** C5: with a score that is null or above 35 the security lens returns the
    sanitized issues whose lowercase text contains "secret", "eval", "exec"
    or "insecure", in the order they have in [issues]; the result may be
    empty. *)
Theorem security_keyword_subsequence
    (coerced_le_35 : value -> bool) (l : list value) (score : value) :
  score = VNull \/ (exists n, score = VNum n /\ 35 < n) ->
  classify coerced_le_35 (VStr "security") (VArr l) score
  = Ok (filter (text_contains_any ["secret"; "eval"; "exec"; "insecure"])
          (sanitized l))
  /\ Subseq (filter (text_contains_any ["secret"; "eval"; "exec"; "insecure"])
               (sanitized l)) l.
Proof.
  intros Hscore. split.
  - unfold classify. destruct l as [|x l]; [reflexivity|].
    rewrite getIssuesForFeature_nonempty by discriminate.
    unfold lens_rule. simpl strict_eq_str. cbv iota.
    destruct Hscore as [-> | [n [-> Hn]]].
    + reflexivity.
    + simpl. rewrite (proj2 (Z.leb_gt n 35) Hn). reflexivity.
  - eapply Subseq_trans; [apply filter_Subseq|apply filter_Subseq].
Qed.

Lemma security_keyword_subsequence_witness :
  classify (fun _ => false) (VStr "security")
    (VArr [VStr "Found eval() call"; VStr "unrelated note"]) (VNum 50)
  = Ok [VStr "Found eval() call"].
Proof.
  apply (security_keyword_subsequence (fun _ => false)
           [VStr "Found eval() call"; VStr "unrelated note"] (VNum 50)).
  right. exists 50. split; [reflexivity | lia].
Defined.

(** ** The stub lenses *)

(** C2, as the specification states it, fails: with no issues and a null
    score the dependency lens returns the empty sequence. *)
Lemma stub_lenses_not_on_empty_issues :
  ~ (forall (coerced_le_35 : value -> bool) (l : list value) (score : value),
        classify coerced_le_35 (VStr "dependency") (VArr l) score
        = Ok [dependency_stub]
        /\ classify coerced_le_35 (VStr "refactor") (VArr l) score
           = Ok [refactor_stub]).
Proof.
  intros H.
  destruct (H (fun _ => false) [] VNull) as [Hdep _].
  discriminate Hdep.
Qed.

(** C2, amended: for every issues sequence with at least one element and
    every score, the dependency lens and the refactor lens each return
    their fixed message and nothing else. *)
Theorem stub_lenses_fixed_message
    (coerced_le_35 : value -> bool) (l : list value) (score : value) :
  l <> [] ->
  classify coerced_le_35 (VStr "dependency") (VArr l) score
  = Ok [VStr "Unused or risky dependency detected"]
  /\ classify coerced_le_35 (VStr "refactor") (VArr l) score
     = Ok [VStr "Code can be refactored to improve readability"].
Proof.
  intros Hl. unfold classify.
  rewrite !getIssuesForFeature_nonempty by exact Hl.
  split; reflexivity.
Qed.

Lemma stub_lenses_fixed_message_witness :
  classify (fun _ => false) (VStr "dependency") (VArr [VNum 7]) VNull
  = Ok [dependency_stub]
  /\ classify (fun _ => false) (VStr "refactor") (VArr [VNum 7]) VNull
     = Ok [refactor_stub].
Proof.
  apply (stub_lenses_fixed_message (fun _ => false) [VNum 7] VNull).
  discriminate.
Defined.

(** ** The complexity lens *)

(** C3, as the specification states it, fails: with no issues the
    complexity lens returns the empty sequence, not the fallback message. *)
Lemma complexity_empty_on_empty_issues :
  ~ (forall (coerced_le_35 : value -> bool) (l : list value) (score : value),
        classify coerced_le_35 (VStr "complexity") (VArr l) score
        = Ok (match filter (text_contains_any ["complex"]) (sanitized l) with
              | [] => [complexity_fallback]
              | found => found
              end)
        /\ classify coerced_le_35 (VStr "complexity") (VArr l) score
           <> Ok []).
Proof.
  intros H.
  destruct (H (fun _ => false) [] (VNum 80)) as [_ Hne].
  apply Hne. reflexivity.
Qed.

(** C3, amended: for every issues sequence with at least one element and
    every score, the complexity lens returns the sanitized issues whose
    lowercase text contains "complex", or the fallback message alone when
    there is none; so it does not return the empty sequence. *)
Theorem complexity_subsequence_or_fallback
    (coerced_le_35 : value -> bool) (l : list value) (score : value) :
  l <> [] ->
  classify coerced_le_35 (VStr "complexity") (VArr l) score
  = Ok (match filter (text_contains_any ["complex"]) (sanitized l) with
        | [] => [VStr "High cyclomatic complexity detected"]
        | found => found
        end)
  /\ classify coerced_le_35 (VStr "complexity") (VArr l) score <> Ok [].
Proof.
  intros Hl. unfold classify.
  rewrite getIssuesForFeature_nonempty by exact Hl.
  unfold lens_rule. simpl strict_eq_str. cbv iota.
  split; [reflexivity|].
  destruct (filter (text_contains_any ["complex"]) (sanitized l));
    discriminate.
Qed.

Lemma complexity_subsequence_or_fallback_witness :
  (classify (fun _ => false) (VStr "complexity")
     (VArr [VStr "eval() used"; VNum 3; VStr "Complex loop detected"]) (VNum 20)
   = Ok [VStr "Complex loop detected"])
  /\ (classify (fun _ => false) (VStr "complexity")
        (VArr [VStr "eval() used"]) VNull
      = Ok [VStr "High cyclomatic complexity detected"]).
Proof.
  split.
  - apply (complexity_subsequence_or_fallback (fun _ => false)
             [VStr "eval() used"; VNum 3; VStr "Complex loop detected"]
             (VNum 20)).
    discriminate.
  - apply (complexity_subsequence_or_fallback (fun _ => false)
             [VStr "eval() used"] VNull).
    discriminate.
Defined.

(** ** Every lens *)

(** C8: for every lens and every score, when the stored issues are the
    empty sequence or are not an array, the classifier returns the empty
    sequence. *)
Theorem classify_nothing_without_issues
    (coerced_le_35 : value -> bool) (lens issues score : value) :
  issues = VArr [] \/ Array_isArray issues = false ->
  classify coerced_le_35 lens issues score = Ok [].
Proof.
  intros [-> | Hna]; unfold classify.
  - apply getIssuesForFeature_empty.
  - apply getIssuesForFeature_not_array. exact Hna.
Qed.

Lemma classify_nothing_without_issues_witness :
  classify (fun _ => false) (VStr "refactor") (VArr []) (VNum 10) = Ok []
  /\ classify (fun _ => false) (VStr "security") (VStr "eval") (VNum 10)
     = Ok [].
Proof.
  split.
  - apply (classify_nothing_without_issues (fun _ => false)
             (VStr "refactor") (VArr []) (VNum 10)).
    left. reflexivity.
  - apply (classify_nothing_without_issues (fun _ => false)
             (VStr "security") (VStr "eval") (VNum 10)).
    right. reflexivity.
Defined.




(** C10: for every lens other than "security", "complexity", "dependency"
    and "refactor", and for every issues value and score, the classifier
    returns the empty sequence and does not throw. *)
Theorem classify_unknown_lens
    (coerced_le_35 : value -> bool) (lens issues score : value) :
  lens <> VStr "security" ->
  lens <> VStr "complexity" ->
  lens <> VStr "dependency" ->
  lens <> VStr "refactor" ->
  classify coerced_le_35 lens issues score = Ok [].
Proof.
  intros Hs Hc Hd Hr.
  assert (Hneq : forall w, lens <> VStr w -> strict_eq_str lens w = false).
  { intros w Hw. destruct lens; try reflexivity.
    simpl. apply String.eqb_neq. intros ->. apply Hw. reflexivity. }
  unfold classify.
  destruct (Array_isArray issues) eqn:Harr.
  - destruct issues as [| | | | |l|]; try discriminate.
    destruct l as [|x l]; [reflexivity|].
    rewrite getIssuesForFeature_nonempty by discriminate.
    rewrite score_test_other_lens by exact (Hneq _ Hs).
    unfold lens_rule.
    rewrite (Hneq _ Hs), (Hneq _ Hc), (Hneq _ Hd), (Hneq _ Hr).
    reflexivity.
  - apply getIssuesForFeature_not_array. exact Harr.
Qed.

Lemma classify_unknown_lens_witness :
  classify (fun _ => false) (VStr "bogus-lens") (VArr [VStr "x"]) (VNum 10)
  = Ok [].
Proof.
  apply (classify_unknown_lens (fun _ => false)
           (VStr "bogus-lens") (VArr [VStr "x"]) (VNum 10));
    discriminate.
Defined.

(** ** The explanation helper *)

(** C6: on every string [explainIssue] returns, without throwing, the
    explanation of the first rule of the table that has a keyword in the
    lowercased text, and the generic fallback when no rule has one; a text
    with "password" gets the credential explanation and the empty text the
    generic fallback. *)
Theorem explainIssue_first_match :
  (forall s : string, explainIssue (VStr s) = Ok (explain s))
  /\ explainIssue (VStr "Hardcoded password found")
     = Ok "Hardcoded secrets can leak credentials and should be stored securely."
  /\ explainIssue (VStr "")
     = Ok "This issue may negatively affect security or code quality.".
Proof.
  split; [|split; reflexivity].
  intros s. unfold explainIssue, explain, rule_table, generic_fallback.
  simpl call_toLowerCase. cbv beta iota delta [bind].
  generalize (toLowerCase s). intros text.
  cbn [find existsb fst snd].
  rewrite !orb_false_r.
  destruct (includes text "eval"), (includes text "exec"),
    (includes text "secret"), (includes text "password"),
    (includes text "token"), (includes text "complex"),
    (includes text "dependency"), (includes text "refactor");
    reflexivity.
Qed.

(** ** The analysis request *)

(** C9: when a file is selected, [analyzeFile] calls [fetch] with the score
    set to null, the issues to the empty sequence and the active lens to
    null; and when [fetch] or [res.json()] rejects, the three still have
    those values once [analyzeFile] has finished. *)
Theorem analyzeFile_clears_then_keeps_cleared (r : response) (st : state) :
  ToBoolean (file st) = true ->
  (exists (now : state) (later : list event),
      snd (analyzeFile r st)
      = Fetch "http://127.0.0.1:8000/analyze" (file st) now :: later
      /\ score now = VNull
      /\ issues now = VArr []
      /\ activeFeature now = VNull)
  /\ (r = FetchRejects \/ r = JsonRejects ->
      score (fst (analyzeFile r st)) = VNull
      /\ issues (fst (analyzeFile r st)) = VArr []
      /\ activeFeature (fst (analyzeFile r st)) = VNull).
Proof.
  intros Hfile. unfold analyzeFile. rewrite Hfile. cbn [negb].
  split.
  - destruct (try_block r _) as [st' outcome]. cbn [snd].
    eexists. eexists. split; [reflexivity|].
    repeat split.
  - intros [-> | ->]; repeat split.
Qed.

Lemma analyzeFile_clears_then_keeps_cleared_witness :
  score (fst (analyzeFile JsonRejects
                (mkState (VObj [("name", VStr "a.py")]) (VNum 90)
                   (VArr [VStr "eval() used"]) (VStr "security") false)))
  = VNull
  /\ issues (fst (analyzeFile JsonRejects
                    (mkState (VObj [("name", VStr "a.py")]) (VNum 90)
                       (VArr [VStr "eval() used"]) (VStr "security") false)))
     = VArr []
  /\ activeFeature (fst (analyzeFile JsonRejects
                           (mkState (VObj [("name", VStr "a.py")]) (VNum 90)
                              (VArr [VStr "eval() used"]) (VStr "security")
                              false)))
     = VNull.
Proof.
  apply (analyzeFile_clears_then_keeps_cleared JsonRejects
           (mkState (VObj [("name", VStr "a.py")]) (VNum 90)
              (VArr [VStr "eval() used"]) (VStr "security") false)).
  - reflexivity.
  - right. reflexivity.
Defined.

(** C4, as the specification states it, fails: a response without a
    [score] field leaves the score [undefined], not null. *)
Lemma missing_score_not_stored_as_null :
  ~ (forall (st : state) (props : list (string * value)),
        ToBoolean (file st) = true ->
        (Array_isArray (lookup "issues" props) = false ->
         issues (fst (analyzeFile (Body (VObj props)) st)) = VArr [])
        /\ ((forall n, lookup "score" props <> VNum n) ->
            score (fst (analyzeFile (Body (VObj props)) st)) = VNull)).
Proof.
  intros H.
  destruct (H (mkState (VObj [("name", VStr "a.py")]) VNull (VArr []) VNull
                 false)
              [("issues", VArr [VStr "eval() used"])] eq_refl) as [_ Hscore].
  assert (Hno : forall n, lookup "score" [("issues", VArr [VStr "eval() used"])]
                          <> VNum n) by (intros n; discriminate).
  specialize (Hscore Hno). discriminate Hscore.
Qed.

(** C4, amended: when the response body is a value whose [score] and
    [issues] can be read, [analyzeFile] reports no error, stores the issues
    field when it is an array and the empty sequence otherwise, and stores
    the score field as it was received (a missing score as [undefined]). *)
Theorem analyzeFile_decodes_response
    (st : state) (data sc found : value) :
  ToBoolean (file st) = true ->
  Get data "score" = Ok sc ->
  Get data "issues" = Ok found ->
  analyzeFile (Body data) st
  = (mkState (file st) sc (if Array_isArray found then found else VArr [])
       VNull false,
     [Fetch "http://127.0.0.1:8000/analyze" (file st)
        (mkState (file st) VNull (VArr []) VNull true)]).
Proof.
  intros Hfile Hsc Hfound.
  unfold analyzeFile. rewrite Hfile. cbn [negb].
  unfold try_block. cbn [await_json]. rewrite Hsc, Hfound.
  destruct (Array_isArray found); reflexivity.
Qed.

Lemma analyzeFile_decodes_response_witness :
  analyzeFile (Body (VObj [("issues", VStr "none")]))
    (mkState (VObj [("name", VStr "a.py")]) (VNum 90)
       (VArr [VStr "eval() used"]) (VStr "security") false)
  = (mkState (VObj [("name", VStr "a.py")]) VUndefined (VArr []) VNull false,
     [Fetch "http://127.0.0.1:8000/analyze" (VObj [("name", VStr "a.py")])
        (mkState (VObj [("name", VStr "a.py")]) VNull (VArr []) VNull true)]).
Proof.
  apply (analyzeFile_decodes_response
           (mkState (VObj [("name", VStr "a.py")]) (VNum 90)
              (VArr [VStr "eval() used"]) (VStr "security") false)
           (VObj [("issues", VStr "none")]) VUndefined (VStr "none"));
    reflexivity.
Defined.

(** ** More on the classifier *)

Lemma lens_rule_length (low : bool) (lens : value) (safe : list value) :
  (List.length (lens_rule low lens safe) <= Nat.max 1 (List.length safe))%nat.
Proof.
  unfold lens_rule.
  pose proof (filter_length_le (text_contains_any security_words) safe).
  pose proof (filter_length_le (text_contains_any ["complex"]) safe).
  destruct (strict_eq_str lens "security").
  { destruct low; simpl List.length; lia. }
  destruct (strict_eq_str lens "complexity").
  { destruct (filter (text_contains_any ["complex"]) safe);
      simpl List.length in *; lia. }
  destruct (strict_eq_str lens "dependency"); [simpl List.length; lia|].
  destruct (strict_eq_str lens "refactor"); simpl List.length; lia.
Qed.

Lemma lens_rule_provenance (low : bool) (lens v : value)
    (safe : list value) :
  In v (lens_rule low lens safe) ->
  In v safe
  \/ In v [override_message; complexity_fallback; dependency_stub;
           refactor_stub].
Proof.
  unfold lens_rule.
  destruct (strict_eq_str lens "security").
  { destruct low.
    - intros [<- | []]. right. simpl. tauto.
    - intros Hv. apply filter_In in Hv. left. exact (proj1 Hv). }
  destruct (strict_eq_str lens "complexity").
  { destruct (filter (text_contains_any ["complex"]) safe) eqn:F.
    - intros [<- | []]. right. simpl. tauto.
    - rewrite <- F. intros Hv. apply filter_In in Hv. left. exact (proj1 Hv). }
  destruct (strict_eq_str lens "dependency").
  { intros [<- | []]. right. simpl. tauto. }
  destruct (strict_eq_str lens "refactor").
  { intros [<- | []]. right. simpl. tauto. }
  intros [].
Qed.

Section ClassifierShape.

Variable coerced_le_35 : value -> bool.

(** The classifier on every value of [issues]: the score test and the rule
    table on the sanitized issues when [issues] is an array with an
    element, and the empty sequence otherwise. *)
Lemma getIssuesForFeature_total (issues score feature : value) :
  getIssuesForFeature coerced_le_35 issues score feature
  = match issues with
    | VArr (x :: l) =>
        low <- score_test coerced_le_35 feature score ;;
        Ok (lens_rule low feature (sanitized (x :: l)))
    | _ => Ok []
    end.
Proof.
  destruct issues as [| | | | |l|];
    try (apply getIssuesForFeature_not_array; reflexivity).
  destruct l as [|x l].
  - apply getIssuesForFeature_empty.
  - apply getIssuesForFeature_nonempty. discriminate.
Qed.

(** On an array of issues the classifier returns whenever the score test
    does. *)
Lemma classify_array_returns (lens score : value) (l : list value) :
  lens <> VStr "security" \/ ToPrimitive_throws score = false ->
  exists low : bool,
    classify coerced_le_35 lens (VArr l) score
    = Ok (match l with
          | [] => []
          | _ => lens_rule low lens (sanitized l)
          end).
Proof.
  intros Hscore.
  destruct (score_test_returns coerced_le_35 lens score Hscore) as [low Hlow].
  exists low. unfold classify. rewrite getIssuesForFeature_total.
  destruct l as [|x l]; [reflexivity|].
  rewrite Hlow. reflexivity.
Qed.

End ClassifierShape.

Lemma sanitized_without_junk (l1 l2 : list value) (junk : value) :
  is_string junk = false ->
  sanitized (l1 ++ junk :: l2) = sanitized (l1 ++ l2).
Proof.
  intros Hj. unfold sanitized. rewrite !filter_app. simpl. rewrite Hj.
  reflexivity.
Qed.

(** X1: for every issues array, and every lens and score on which the
    score comparison does not throw (a lens other than "security", or a
    score that converts to a primitive), the classifier returns at most as
    many entries as [issues] has elements. *)
Theorem classify_at_most_as_many_as_issues
    (coerced_le_35 : value -> bool) (lens score : value) (l : list value) :
  lens <> VStr "security" \/ ToPrimitive_throws score = false ->
  exists out : list value,
    classify coerced_le_35 lens (VArr l) score = Ok out
    /\ (List.length out <= List.length l)%nat.
Proof.
  intros Hscore.
  destruct (classify_array_returns coerced_le_35 lens score l Hscore)
    as [low ->].
  eexists. split; [reflexivity|].
  destruct l as [|x l]; [apply Nat.le_refl|].
  pose proof (lens_rule_length low lens (sanitized (x :: l))).
  pose proof (filter_length_le is_string (x :: l)).
  unfold sanitized in *. simpl List.length in *. lia.
Qed.

Lemma classify_at_most_as_many_as_issues_witness :
  exists out : list value,
    classify (fun _ => false) (VStr "security")
      (VArr [VStr "eval() used"; VNum 3; VStr "note"]) (VArr [VObj []])
    = Ok out
    /\ (List.length out <= 3)%nat.
Proof.
  apply (classify_at_most_as_many_as_issues (fun _ => false)
           (VStr "security") (VArr [VObj []])
           [VStr "eval() used"; VNum 3; VStr "note"]).
  right. reflexivity.
Defined.

(** X2: under the same condition on the lens and the score, every entry
    the classifier returns is an element of [issues] or one of the four
    fixed messages. *)
Theorem classify_entries_from_issues_or_fixed
    (coerced_le_35 : value -> bool) (lens score : value) (l : list value) :
  lens <> VStr "security" \/ ToPrimitive_throws score = false ->
  exists out : list value,
    classify coerced_le_35 lens (VArr l) score = Ok out
    /\ forall v, In v out ->
         In v l
         \/ In v [VStr "Potential security vulnerability detected due to unsafe coding patterns";
                  VStr "High cyclomatic complexity detected";
                  VStr "Unused or risky dependency detected";
                  VStr "Code can be refactored to improve readability"].
Proof.
  intros Hscore.
  destruct (classify_array_returns coerced_le_35 lens score l Hscore)
    as [low ->].
  eexists. split; [reflexivity|].
  intros v Hv. destruct l as [|x l]; [destruct Hv|].
  apply lens_rule_provenance in Hv. destruct Hv as [Hv | Hv].
  - left. apply filter_In in Hv. exact (proj1 Hv).
  - right. exact Hv.
Qed.

Lemma classify_entries_from_issues_or_fixed_witness :
  exists out : list value,
    classify (fun _ => false) (VStr "complexity")
      (VArr [VStr "eval() used"; VNull]) (VObj [("toString", VNum 1)])
    = Ok out
    /\ forall v, In v out ->
         In v [VStr "eval() used"; VNull]
         \/ In v [VStr "Potential security vulnerability detected due to unsafe coding patterns";
                  VStr "High cyclomatic complexity detected";
                  VStr "Unused or risky dependency detected";
                  VStr "Code can be refactored to improve readability"].
Proof.
  apply (classify_entries_from_issues_or_fixed (fun _ => false)
           (VStr "complexity") (VObj [("toString", VNum 1)])
           [VStr "eval() used"; VNull]).
  left. discriminate.
Defined.

(** X3: only the security lens reads the score: for every other lens the
    result is the same for any two scores. *)
Theorem classify_score_only_for_security
    (coerced coerced' : value -> bool) (lens issues score score' : value) :
  lens <> VStr "security" ->
  classify coerced lens issues score = classify coerced' lens issues score'.
Proof.
  intros Hlens.
  assert (Hs : strict_eq_str lens "security" = false).
  { destruct lens; try reflexivity.
    simpl. apply String.eqb_neq. intros ->. apply Hlens. reflexivity. }
  unfold classify. rewrite !getIssuesForFeature_total.
  destruct issues as [| | | | |l|]; try reflexivity.
  destruct l as [|x l]; [reflexivity|].
  rewrite !score_test_other_lens by exact Hs. reflexivity.
Qed.

Lemma classify_score_only_for_security_witness :
  classify (fun _ => false) (VStr "complexity")
    (VArr [VStr "complex loop detected"; VStr "eval() used"]) (VNum 20)
  = classify (fun _ => true) (VStr "complexity")
      (VArr [VStr "complex loop detected"; VStr "eval() used"]) (VStr "90").
Proof.
  apply (classify_score_only_for_security (fun _ => false) (fun _ => true)
           (VStr "complexity")
           (VArr [VStr "complex loop detected"; VStr "eval() used"])
           (VNum 20) (VStr "90")).
  discriminate.
Defined.

(** X4: an element of [issues] that is not a string has no effect on the
    result as long as another element is left: removing it gives the same
    result, for every lens and score. *)
Theorem classify_ignores_non_string_element
    (coerced_le_35 : value -> bool) (lens score junk : value)
    (l1 l2 : list value) :
  is_string junk = false ->
  (l1 ++ l2)%list <> [] ->
  classify coerced_le_35 lens (VArr (l1 ++ junk :: l2)) score
  = classify coerced_le_35 lens (VArr (l1 ++ l2)) score.
Proof.
  intros Hj Hne. unfold classify.
  rewrite !getIssuesForFeature_nonempty.
  - rewrite (sanitized_without_junk l1 l2 junk Hj). reflexivity.
  - exact Hne.
  - destruct l1; discriminate.
Qed.

Lemma classify_ignores_non_string_element_witness :
  classify (fun _ => false) (VStr "security")
    (VArr [VStr "Found eval() call"; VObj [("eval", VNum 1)]; VStr "note"])
    (VNum 50)
  = classify (fun _ => false) (VStr "security")
      (VArr [VStr "Found eval() call"; VStr "note"]) (VNum 50).
Proof.
  apply (classify_ignores_non_string_element (fun _ => false)
           (VStr "security") (VNum 50) (VObj [("eval", VNum 1)])
           [VStr "Found eval() call"] [VStr "note"]).
  - reflexivity.
  - discriminate.
Defined.

(** X5: the guard of line 53 looks at [issues] before the non-strings are
    dropped: when [issues] has elements and none is a string, the
    complexity lens returns its fallback message, and the security lens
    with a null score returns the empty sequence. *)
Theorem classify_on_non_strings_only
    (coerced_le_35 : value -> bool) (l : list value) :
  l <> [] ->
  sanitized l = [] ->
  classify coerced_le_35 (VStr "complexity") (VArr l) VNull
  = Ok [VStr "High cyclomatic complexity detected"]
  /\ classify coerced_le_35 (VStr "security") (VArr l) VNull = Ok [].
Proof.
  intros Hne Hjunk. unfold classify.
  rewrite !getIssuesForFeature_nonempty by exact Hne.
  rewrite Hjunk. split; reflexivity.
Qed.

Lemma classify_on_non_strings_only_witness :
  classify (fun _ => false) (VStr "complexity") (VArr [VNull; VNum 4]) VNull
  = Ok [VStr "High cyclomatic complexity detected"]
  /\ classify (fun _ => false) (VStr "security") (VArr [VNull; VNum 4]) VNull
     = Ok [].
Proof.
  apply (classify_on_non_strings_only (fun _ => false) [VNull; VNum 4]).
  - discriminate.
  - reflexivity.
Defined.

(** ** More on the explanations and the issues panel *)

Lemma lower_unit_idempotent (c : ascii) :
  lower_unit (lower_unit c) = lower_unit c.
Proof.
  destruct c as [[] [] [] [] [] [] [] []]; vm_compute; reflexivity.
Qed.

Lemma toLowerCase_idempotent (s : string) :
  toLowerCase (toLowerCase s) = toLowerCase s.
Proof.
  induction s as [|c s IH]; simpl.
  - reflexivity.
  - rewrite lower_unit_idempotent, IH. reflexivity.
Qed.

Lemma explainIssue_string (s : string) :
  explainIssue (VStr s) = Ok (explain s).
Proof.
  unfold explainIssue, explain, rule_table, generic_fallback.
  simpl call_toLowerCase. cbv beta iota delta [bind].
  generalize (toLowerCase s). intros text.
  cbn [find existsb fst snd].
  rewrite !orb_false_r.
  repeat match goal with
         | |- context [includes text ?w] => destruct (includes text w)
         end; reflexivity.
Qed.

Lemma strings_have_texts (l : list value) :
  Forall (fun v => is_string v = true) l ->
  exists texts : list string, l = map VStr texts.
Proof.
  intros Hl. induction Hl as [|v rest Hv _ [texts ->]].
  - exists []. reflexivity.
  - destruct v; try discriminate. exists (s :: texts). reflexivity.
Qed.

Lemma map_loop_insights (texts : list string) :
  map_loop (fun issue => insight <- explainIssue issue ;; Ok (issue, insight))
    (map VStr texts)
  = Ok (map (fun s => (VStr s, explain s)) texts).
Proof.
  induction texts as [|s texts IH]; simpl.
  - reflexivity.
  - rewrite explainIssue_string. simpl. rewrite IH. reflexivity.
Qed.

(** X6: the explanation does not depend on letter case: an issue and its
    lowercased text get the same explanation. *)
Theorem explainIssue_ignores_case (s : string) :
  explainIssue (VStr (toLowerCase s)) = explainIssue (VStr s).
Proof.
  unfold explainIssue. simpl call_toLowerCase.
  rewrite toLowerCase_idempotent. reflexivity.
Qed.

Lemma button_heading_units (b : button) :
  panel_heading (VStr (button_feature b)) = Ok (code_units (button_heading b)).
Proof. destruct b; reflexivity. Qed.

(** X7: rendering the issues panel does not throw when the active feature
    is falsy or a string and the score comparison does not throw (a feature
    other than "security", or a score that converts to a primitive),
    whatever else the state variables hold: the entries to show are
    strings, no panel is rendered without an active feature, the "no
    issues" paragraph is rendered when there is no entry, and otherwise
    each entry is listed in order with the explanation of its text. *)
Theorem issues_panel_renders
    (coerced_le_35 : value -> bool) (st : state) :
  (ToBoolean (activeFeature st) = true -> is_string (activeFeature st) = true) ->
  activeFeature st <> VStr "security"
  \/ ToPrimitive_throws (score st) = false ->
  exists (texts : list string) (title : list N),
    featureIssues coerced_le_35 st = Ok (map VStr texts)
    /\ (ToBoolean (activeFeature st) = true ->
        panel_heading (activeFeature st) = Ok title)
    /\ issues_panel coerced_le_35 st
       = Ok (if ToBoolean (activeFeature st) then
               Some (mkPanel title
                       (match texts with
                        | [] => NoIssuesFound
                        | _ => IssueList
                                 (map (fun s => (VStr s, explain s)) texts)
                        end))
             else None).
Proof.
  intros Hfeature Hscore.
  assert (Hshown : exists texts,
             featureIssues coerced_le_35 st = Ok (map VStr texts)).
  { unfold featureIssues. destruct (ToBoolean (activeFeature st)).
    - rewrite getIssuesForFeature_total.
      destruct (issues st) as [| | | | |l|]; try (exists []; reflexivity).
      destruct l as [|x l]; [exists []; reflexivity|].
      destruct (score_test_returns coerced_le_35 _ _ Hscore) as [low ->].
      destruct (strings_have_texts _
                  (lens_rule_strings low (activeFeature st) (x :: l)))
        as [texts Htexts].
      exists texts. cbv beta iota delta [bind]. rewrite Htexts. reflexivity.
    - exists []. reflexivity. }
  destruct Hshown as [texts Hshown].
  assert (Htitle : exists title,
             ToBoolean (activeFeature st) = true ->
             panel_heading (activeFeature st) = Ok title).
  { destruct (ToBoolean (activeFeature st)).
    - specialize (Hfeature eq_refl).
      destruct (activeFeature st); try discriminate.
      eexists. intros _. reflexivity.
    - exists []. discriminate. }
  destruct Htitle as [title Htitle].
  exists texts, title. split; [exact Hshown|]. split; [exact Htitle|].
  unfold issues_panel. rewrite Hshown. cbv beta iota delta [bind].
  destruct (ToBoolean (activeFeature st)); [|reflexivity].
  rewrite (Htitle eq_refl).
  destruct texts as [|s texts]; [reflexivity|].
  replace (0 <? Z.of_nat (List.length (map VStr (s :: texts)))) with true
    by (symmetry; apply Z.ltb_lt; simpl List.length; lia).
  rewrite map_loop_insights. reflexivity.
Qed.

Lemma issues_panel_renders_witness :
  exists (texts : list string) (title : list N),
    featureIssues (fun _ => false)
      (mkState VNull (VStr "n/a")
         (VArr [VNull; VStr "Too complex"; VStr "eval() used"])
         (VStr "complexity") false)
    = Ok (map VStr texts)
    /\ (ToBoolean (VStr "complexity") = true ->
        panel_heading (VStr "complexity") = Ok title)
    /\ issues_panel (fun _ => false)
         (mkState VNull (VStr "n/a")
            (VArr [VNull; VStr "Too complex"; VStr "eval() used"])
            (VStr "complexity") false)
       = Ok (Some (mkPanel title
                     (match texts with
                      | [] => NoIssuesFound
                      | _ => IssueList
                               (map (fun s => (VStr s, explain s)) texts)
                      end))).
Proof.
  apply (issues_panel_renders (fun _ => false)
           (mkState VNull (VStr "n/a")
              (VArr [VNull; VStr "Too complex"; VStr "eval() used"])
              (VStr "complexity") false)).
  - reflexivity.
  - left. discriminate.
Defined.

(** X8: every entry of the complexity lens, the fallback message included,
    gets one of the first three explanations of the table: arbitrary code,
    credentials or complexity. *)
Theorem complexity_entries_explained
    (coerced_le_35 : value -> bool) (l : list value) (score : value) :
  l <> [] ->
  exists out : list value,
    classify coerced_le_35 (VStr "complexity") (VArr l) score = Ok out
    /\ Forall (fun v => exists insight,
                 explainIssue v = Ok insight
                 /\ In insight
                      ["This allows execution of arbitrary code and can be exploited by attackers.";
                       "Hardcoded secrets can leak credentials and should be stored securely.";
                       "High complexity makes code harder to understand, test, and maintain."])
              out.
Proof.
  intros Hl. unfold classify.
  rewrite getIssuesForFeature_nonempty by exact Hl.
  eexists. split; [reflexivity|].
  unfold lens_rule. simpl strict_eq_str. cbv iota.
  destruct (filter (text_contains_any ["complex"]) (sanitized l))
    as [|hit found] eqn:F.
  - constructor; [|constructor].
    eexists. split; [reflexivity|]. simpl. tauto.
  - rewrite <- F. apply Forall_forall. intros v Hv.
    apply filter_In in Hv. destruct Hv as [_ Hv].
    destruct v; try discriminate. simpl in Hv. rewrite orb_false_r in Hv.
    unfold explainIssue. simpl call_toLowerCase. cbv beta iota delta [bind].
    revert Hv. generalize (toLowerCase s). intros text Hv. rewrite Hv.
    destruct (includes text "eval"), (includes text "exec"),
      (includes text "secret"), (includes text "password"),
      (includes text "token");
      (eexists; split; [reflexivity | simpl; tauto]).
Qed.

Lemma complexity_entries_explained_witness :
  exists out : list value,
    classify (fun _ => false) (VStr "complexity")
      (VArr [VStr "Too complex: exec() in a loop"; VStr "note"]) VNull = Ok out
    /\ Forall (fun v => exists insight,
                 explainIssue v = Ok insight
                 /\ In insight
                      ["This allows execution of arbitrary code and can be exploited by attackers.";
                       "Hardcoded secrets can leak credentials and should be stored securely.";
                       "High complexity makes code harder to understand, test, and maintain."])
              out.
Proof.
  apply (complexity_entries_explained (fun _ => false)
           [VStr "Too complex: exec() in a loop"; VStr "note"] VNull).
  discriminate.
Defined.

(** X9: with at least one issue, the dependency panel and the refactor
    panel carry the capitalised feature name as heading and show their
    fixed message with the explanation of their own rule, while the
    override message of the security lens (score at most 35) matches no
    rule and is shown with the generic explanation. *)
Theorem panel_of_fixed_messages
    (coerced_le_35 : value -> bool) (f sc : value) (l : list value)
    (n : Z) (busy : bool) :
  l <> [] ->
  n <= 35 ->
  issues_panel coerced_le_35
    (mkState f sc (VArr l) (VStr "dependency") busy)
  = Ok (Some (mkPanel (code_units "Dependency") (IssueList
          [(VStr "Unused or risky dependency detected",
            "Unused or risky dependencies increase attack surface and maintenance cost.")])))
  /\ issues_panel coerced_le_35
       (mkState f sc (VArr l) (VStr "refactor") busy)
     = Ok (Some (mkPanel (code_units "Refactor") (IssueList
             [(VStr "Code can be refactored to improve readability",
               "Refactoring improves readability and long-term maintainability.")])))
  /\ issues_panel coerced_le_35
       (mkState f (VNum n) (VArr l) (VStr "security") busy)
     = Ok (Some (mkPanel (code_units "Security") (IssueList
             [(VStr "Potential security vulnerability detected due to unsafe coding patterns",
               "This issue may negatively affect security or code quality.")]))).
Proof.
  intros Hl Hn. unfold issues_panel, featureIssues.
  cbn [activeFeature issues score ToBoolean String.eqb negb].
  rewrite !getIssuesForFeature_nonempty by exact Hl.
  unfold score_test, lens_rule. simpl strict_eq_str. cbv iota.
  simpl strict_eq_null. cbn [negb andb le_35].
  rewrite (proj2 (Z.leb_le n 35) Hn).
  repeat split.
Qed.

Lemma panel_of_fixed_messages_witness :
  issues_panel (fun _ => false)
    (mkState VNull (VNum 90) (VArr [VStr "eval() used"]) (VStr "dependency")
       false)
  = Ok (Some (mkPanel (code_units "Dependency") (IssueList
          [(VStr "Unused or risky dependency detected",
            "Unused or risky dependencies increase attack surface and maintenance cost.")])))
  /\ issues_panel (fun _ => false)
       (mkState VNull (VNum 90) (VArr [VStr "eval() used"]) (VStr "refactor")
          false)
     = Ok (Some (mkPanel (code_units "Refactor") (IssueList
             [(VStr "Code can be refactored to improve readability",
               "Refactoring improves readability and long-term maintainability.")])))
  /\ issues_panel (fun _ => false)
       (mkState VNull (VNum 20) (VArr [VStr "eval() used"]) (VStr "security")
          false)
     = Ok (Some (mkPanel (code_units "Security") (IssueList
             [(VStr "Potential security vulnerability detected due to unsafe coding patterns",
               "This issue may negatively affect security or code quality.")]))).
Proof.
  apply (panel_of_fixed_messages (fun _ => false) VNull (VNum 90)
           [VStr "eval() used"] 20 false).
  - discriminate.
  - lia.
Defined.

(** ** More on the analysis request *)

Lemma try_block_fails (r : response) (st : state) :
  fails r = true ->
  exists e : exn, try_block r st = (st, Throw e).
Proof.
  destruct r as [| |data]; simpl.
  - intros _. exists NetworkError. reflexivity.
  - intros _. exists SyntaxError. reflexivity.
  - destruct data; try discriminate; intros _; exists TypeError; reflexivity.
Qed.

Lemma try_block_body (data sc found : value) (st : state) :
  Get data "score" = Ok sc ->
  Get data "issues" = Ok found ->
  try_block (Body data) st
  = (setIssues (decoded_issues found) (setScore sc st), Ok tt).
Proof.
  intros Hsc Hfound. unfold try_block, decoded_issues.
  cbn [await_json]. rewrite Hsc, Hfound.
  destruct (Array_isArray found); reflexivity.
Qed.

Lemma readable_or_fails (r : response) :
  fails r = false ->
  exists data sc found,
    r = Body data /\ Get data "score" = Ok sc /\ Get data "issues" = Ok found.
Proof.
  destruct r as [| |data]; try discriminate.
  intros Hr. exists data.
  destruct data; try discriminate; simpl; eauto.
Qed.

Lemma analyzeFile_settle_fails (r : response) (st : state) :
  fails r = true ->
  analyzeFile_settle r st
  = (setLoading false st,
     [Alert "Backend not reachable. Ensure FastAPI is running on port 8000."]).
Proof.
  intros Hr. unfold analyzeFile_settle.
  destruct (try_block_fails r st Hr) as [e ->]. reflexivity.
Qed.

Lemma analyzeFile_settle_body (data sc found : value) (st : state) :
  Get data "score" = Ok sc ->
  Get data "issues" = Ok found ->
  analyzeFile_settle (Body data) st
  = (mkState (file st) sc (decoded_issues found) (activeFeature st) false, []).
Proof.
  intros Hsc Hfound. unfold analyzeFile_settle.
  rewrite (try_block_body data sc found st Hsc Hfound). reflexivity.
Qed.

(** [analyzeFile] is its two halves one after the other. *)
Lemma analyzeFile_submit_settle (r : response) (st : state) :
  ToBoolean (file st) = true ->
  analyzeFile r st
  = (fst (analyzeFile_settle r (fst (analyzeFile_submit st))),
     (snd (analyzeFile_submit st)
      ++ snd (analyzeFile_settle r (fst (analyzeFile_submit st))))%list).
Proof.
  intros Hfile. unfold analyzeFile, analyzeFile_submit, analyzeFile_settle.
  rewrite Hfile. cbn [negb fst snd].
  destruct (try_block r _) as [st' outcome]. reflexivity.
Qed.

Lemma analyzeFile_submit_cleared (st : state) :
  ToBoolean (file st) = true ->
  analyzeFile_submit st
  = (mkState (file st) VNull (VArr []) VNull true,
     [Fetch "http://127.0.0.1:8000/analyze" (file st)
        (mkState (file st) VNull (VArr []) VNull true)]).
Proof.
  intros Hfile. unfold analyzeFile_submit. rewrite Hfile. reflexivity.
Qed.

(** X10: without a selected file [analyzeFile] sends nothing and changes no
    state variable, whatever the backend would answer: it only raises the
    "select a file" notice. *)
Theorem analyzeFile_without_file (r : response) (st : state) :
  ToBoolean (file st) = false ->
  fst (analyzeFile r st) = st
  /\ snd (analyzeFile r st) = [Alert "Please select a Python file first"]
  /\ forall url body now, ~ In (Fetch url body now) (snd (analyzeFile r st)).
Proof.
  intros Hfile. unfold analyzeFile. rewrite Hfile. cbn [negb fst snd].
  repeat split.
  intros url body now [H | []]. discriminate H.
Qed.

Lemma analyzeFile_without_file_witness :
  fst (analyzeFile (Body (VObj [("score", VNum 20)]))
         (mkState VUndefined (VNum 90) (VArr [VStr "eval() used"])
            (VStr "security") false))
  = mkState VUndefined (VNum 90) (VArr [VStr "eval() used"])
      (VStr "security") false.
Proof.
  apply (analyzeFile_without_file (Body (VObj [("score", VNum 20)]))
           (mkState VUndefined (VNum 90) (VArr [VStr "eval() used"])
              (VStr "security") false)).
  reflexivity.
Defined.

(** X11: with a file selected, what [analyzeFile] leaves and does depends
    on the file and the response only: the score, issues, active feature
    and loading flag it started from have no influence. *)
Theorem analyzeFile_forgets_previous_results
    (r : response) (st st' : state) :
  ToBoolean (file st) = true ->
  file st' = file st ->
  analyzeFile r st' = analyzeFile r st.
Proof.
  intros Hfile Hsame.
  assert (Hfile' : ToBoolean (file st') = true) by (rewrite Hsame; exact Hfile).
  rewrite !analyzeFile_submit_settle by assumption.
  rewrite !analyzeFile_submit_cleared by assumption.
  rewrite Hsame. reflexivity.
Qed.

Lemma analyzeFile_forgets_previous_results_witness :
  analyzeFile (Body (VObj [("score", VNum 70); ("issues", VArr [])]))
    (mkState (VObj [("name", VStr "a.py")]) (VNum 10)
       (VArr [VStr "eval() used"]) (VStr "security") true)
  = analyzeFile (Body (VObj [("score", VNum 70); ("issues", VArr [])]))
      (mkState (VObj [("name", VStr "a.py")]) VNull (VArr []) VNull false).
Proof.
  apply (analyzeFile_forgets_previous_results
           (Body (VObj [("score", VNum 70); ("issues", VArr [])]))
           (mkState (VObj [("name", VStr "a.py")]) VNull (VArr []) VNull false)
           (mkState (VObj [("name", VStr "a.py")]) (VNum 10)
              (VArr [VStr "eval() used"]) (VStr "security") true));
    reflexivity.
Defined.

(** X12: with a file selected, [analyzeFile] calls [fetch] exactly once and
    raises the "backend not reachable" notice exactly when the [try] block
    throws (a rejected [fetch] or [res.json()], or a body that is [null]);
    in every case it ends with the loading flag off, no active feature and
    the file as it was, and when the block throws the score is null and the
    issues are empty. *)
Theorem analyzeFile_outcome (r : response) (st : state) :
  ToBoolean (file st) = true ->
  snd (analyzeFile r st)
  = Fetch "http://127.0.0.1:8000/analyze" (file st)
      (mkState (file st) VNull (VArr []) VNull true)
    :: (if fails r
        then [Alert "Backend not reachable. Ensure FastAPI is running on port 8000."]
        else [])
  /\ loading (fst (analyzeFile r st)) = false
  /\ activeFeature (fst (analyzeFile r st)) = VNull
  /\ file (fst (analyzeFile r st)) = file st
  /\ (fails r = true ->
      score (fst (analyzeFile r st)) = VNull
      /\ issues (fst (analyzeFile r st)) = VArr []).
Proof.
  intros Hfile.
  rewrite analyzeFile_submit_settle by exact Hfile.
  rewrite analyzeFile_submit_cleared by exact Hfile.
  cbn [fst snd].
  destruct (fails r) eqn:Hr.
  - rewrite analyzeFile_settle_fails by exact Hr. repeat split.
  - destruct (readable_or_fails r Hr) as (data & sc & found & -> & Hsc & Hf).
    rewrite (analyzeFile_settle_body data sc found _ Hsc Hf).
    repeat split; discriminate.
Qed.

Lemma analyzeFile_outcome_witness :
  snd (analyzeFile (Body VNull)
         (mkState (VObj [("name", VStr "a.py")]) (VNum 90)
            (VArr [VStr "eval() used"]) (VStr "security") false))
  = [Fetch "http://127.0.0.1:8000/analyze" (VObj [("name", VStr "a.py")])
       (mkState (VObj [("name", VStr "a.py")]) VNull (VArr []) VNull true);
     Alert "Backend not reachable. Ensure FastAPI is running on port 8000."].
Proof.
  apply (analyzeFile_outcome (Body VNull)
           (mkState (VObj [("name", VStr "a.py")]) (VNum 90)
              (VArr [VStr "eval() used"]) (VStr "security") false)).
  reflexivity.
Defined.

(** ** From a response to the panel *)

Lemma button_feature_truthy (b : button) :
  ToBoolean (VStr (button_feature b)) = true.
Proof. destruct b; reflexivity. Qed.

(** X13: after an analysis whose response has readable [score] and
    [issues] fields, a click on a feature button makes [featureIssues] the
    classification, for that lens, of the decoded issues and the score as
    it was received. *)
Theorem featureIssues_after_analysis
    (coerced_le_35 : value -> bool) (b : button)
    (data sc found : value) (st : state) :
  ToBoolean (file st) = true ->
  Get data "score" = Ok sc ->
  Get data "issues" = Ok found ->
  featureIssues coerced_le_35
    (clickFeature b (fst (analyzeFile (Body data) st)))
  = classify coerced_le_35 (VStr (button_feature b))
      (if Array_isArray found then found else VArr []) sc.
Proof.
  intros Hfile Hsc Hfound.
  rewrite analyzeFile_submit_settle by exact Hfile.
  rewrite analyzeFile_submit_cleared by exact Hfile.
  cbn [fst snd].
  rewrite (analyzeFile_settle_body data sc found _ Hsc Hfound).
  unfold featureIssues, clickFeature, setActiveFeature.
  cbn [fst activeFeature issues score].
  rewrite button_feature_truthy. reflexivity.
Qed.

Lemma featureIssues_after_analysis_witness :
  featureIssues (fun _ => false)
    (clickFeature Security
       (fst (analyzeFile
               (Body (VObj [("score", VNum 20);
                            ("issues", VArr [VStr "eval() used";
                                             VStr "complex loop detected"])]))
               (mkState (VObj [("name", VStr "a.py")]) VNull (VArr []) VNull
                  false))))
  = Ok [VStr "Potential security vulnerability detected due to unsafe coding patterns"].
Proof.
  apply (featureIssues_after_analysis (fun _ => false) Security
           (VObj [("score", VNum 20);
                  ("issues", VArr [VStr "eval() used";
                                   VStr "complex loop detected"])])
           (VNum 20)
           (VArr [VStr "eval() used"; VStr "complex loop detected"])
           (mkState (VObj [("name", VStr "a.py")]) VNull (VArr []) VNull
              false));
    reflexivity.
Defined.

(** X14: after an analysis on which the [try] block throws, each of the
    four panels carries its capitalised feature name as heading and shows
    "No issues found for this category". *)
Theorem panel_after_failed_analysis
    (coerced_le_35 : value -> bool) (b : button) (r : response)
    (st : state) :
  ToBoolean (file st) = true ->
  fails r = true ->
  issues_panel coerced_le_35 (clickFeature b (fst (analyzeFile r st)))
  = Ok (Some (mkPanel (code_units (button_heading b)) NoIssuesFound)).
Proof.
  intros Hfile Hr.
  rewrite analyzeFile_submit_settle by exact Hfile.
  rewrite analyzeFile_submit_cleared by exact Hfile.
  cbn [fst snd].
  rewrite analyzeFile_settle_fails by exact Hr.
  unfold issues_panel, featureIssues, clickFeature, setActiveFeature,
    setLoading.
  cbn [fst activeFeature issues score file loading].
  rewrite button_feature_truthy.
  rewrite getIssuesForFeature_empty. cbv beta iota delta [bind].
  rewrite button_heading_units. reflexivity.
Qed.

Lemma panel_after_failed_analysis_witness :
  issues_panel (fun _ => false)
    (clickFeature Dependency
       (fst (analyzeFile JsonRejects
               (mkState (VObj [("name", VStr "a.py")]) (VNum 20)
                  (VArr [VStr "eval() used"]) (VStr "security") false))))
  = Ok (Some (mkPanel (code_units "Dependency") NoIssuesFound)).
Proof.
  apply (panel_after_failed_analysis (fun _ => false) Dependency JsonRejects
           (mkState (VObj [("name", VStr "a.py")]) (VNum 20)
              (VArr [VStr "eval() used"]) (VStr "security") false));
    reflexivity.
Defined.



(** ** The page as a machine *)

Lemma try_block_frame (r : response) (st : state) :
  file (fst (try_block r st)) = file st
  /\ activeFeature (fst (try_block r st)) = activeFeature st
  /\ (Array_isArray (issues st) = true ->
      Array_isArray (issues (fst (try_block r st))) = true).
Proof.
  destruct (fails r) eqn:Hr.
  - destruct (try_block_fails r st Hr) as [e ->]. repeat split. tauto.
  - destruct (readable_or_fails r Hr) as (data & sc & found & -> & Hsc & Hf).
    rewrite (try_block_body data sc found st Hsc Hf).
    repeat split. intros _. cbn [fst setIssues issues].
    unfold decoded_issues. destruct (Array_isArray found) eqn:E.
    + exact E.
    + reflexivity.
Qed.

Lemma analyzeFile_settle_state (r : response) (st : state) :
  fst (analyzeFile_settle r st) = setLoading false (fst (try_block r st)).
Proof.
  unfold analyzeFile_settle. destruct (try_block r st). reflexivity.
Qed.

Lemma step_page_ok (a : action) (pg pg' : page) :
  page_ok pg -> step a pg = Some pg' -> page_ok pg'.
Proof.
  intros (Harr & Hfeat & Hload) Hstep.
  destruct a as [f|b| |r]; simpl in Hstep.
  - injection Hstep as <-. repeat split; assumption.
  - injection Hstep as <-. repeat split; simpl.
    + exact Harr.
    + right. exists b. reflexivity.
    + exact Hload.
  - injection Hstep as <-. unfold analyzeFile_submit.
    destruct (ToBoolean (file (ui pg))); cbn [negb fst ui pending].
    + repeat split; simpl; try tauto. intros _. apply Nat.lt_0_succ.
    + repeat split; assumption.
  - destruct (pending pg) as [|waiting]; [discriminate|].
    injection Hstep as <-. cbn [ui pending].
    rewrite analyzeFile_settle_state.
    destruct (try_block_frame r (ui pg)) as (_ & Hact & Hiss).
    unfold page_ok. cbn [ui pending setLoading issues activeFeature loading].
    split; [|split].
    + apply Hiss. exact Harr.
    + rewrite Hact. exact Hfeat.
    + discriminate.
Qed.

(** X16: whatever the user does (select files, click feature buttons, click
    ANALYZE again while requests are pending) and whatever the responses
    are, in whatever order: the issues stay an array, the active feature is
    null or one of the four feature names, and the loading flag is on only
    while a request is pending. *)
Theorem page_ok_always (actions : list action) (pg : page) :
  run actions start = Some pg ->
  page_ok pg.
Proof.
  assert (Hrun : forall from, page_ok from -> run actions from = Some pg ->
                              page_ok pg).
  { induction actions as [|a rest IH]; intros from Hok Hr; simpl in Hr.
    - injection Hr as <-. exact Hok.
    - destruct (step a from) as [next|] eqn:Hs; [|discriminate].
      apply (IH next); [|exact Hr].
      exact (step_page_ok a from next Hok Hs). }
  apply Hrun. repeat split; simpl.
  - left. reflexivity.
  - discriminate.
Qed.

Lemma page_ok_always_witness :
  page_ok
    (mkPage (mkState (VObj [("name", VStr "b.py")]) (VStr "high") (VArr [])
               (VStr "refactor") false) 1).
Proof.
  apply (page_ok_always
           [SelectFile (VObj [("name", VStr "a.py")]); ClickAnalyze;
            SelectFile (VObj [("name", VStr "b.py")]); ClickAnalyze;
            ClickFeature Refactor;
            Respond (Body (VObj [("score", VStr "high");
                                 ("issues", VNum 3)]))]).
  reflexivity.
Defined.

(** X17: the response that arrives last decides what is shown: when it has
    readable [score] and [issues] fields, the score and the issues are
    those of that response, whatever arrived before it, and the file and
    the active feature are untouched. *)
Theorem last_response_wins
    (earlier : response) (data sc found : value) (st : state) :
  Get data "score" = Ok sc ->
  Get data "issues" = Ok found ->
  fst (analyzeFile_settle (Body data) (fst (analyzeFile_settle earlier st)))
  = mkState (file st) sc (if Array_isArray found then found else VArr [])
      (activeFeature st) false.
Proof.
  intros Hsc Hfound.
  rewrite (analyzeFile_settle_body data sc found _ Hsc Hfound).
  rewrite analyzeFile_settle_state.
  destruct (try_block_frame earlier st) as (Hfile & Hact & _).
  cbn [fst setLoading file activeFeature].
  rewrite Hfile, Hact. reflexivity.
Qed.

Lemma last_response_wins_witness :
  fst (analyzeFile_settle
         (Body (VObj [("score", VNum 20); ("issues", VArr [VStr "eval() used"])]))
         (fst (analyzeFile_settle
                 (Body (VObj [("score", VNum 95); ("issues", VArr [])]))
                 (mkState (VObj [("name", VStr "b.py")]) VNull (VArr [])
                    (VStr "security") true))))
  = mkState (VObj [("name", VStr "b.py")]) (VNum 20)
      (VArr [VStr "eval() used"]) (VStr "security") false.
Proof.
  apply (last_response_wins
           (Body (VObj [("score", VNum 95); ("issues", VArr [])]))
           (VObj [("score", VNum 20); ("issues", VArr [VStr "eval() used"])])
           (VNum 20) (VArr [VStr "eval() used"])
           (mkState (VObj [("name", VStr "b.py")]) VNull (VArr [])
              (VStr "security") true));
    reflexivity.
Defined.

(** X18: a response on which the [try] block throws changes nothing but
    the loading flag: when it arrives after a response that was decoded,
    the score and the issues of that earlier response stay, and the
    "backend not reachable" notice is raised. *)
Theorem failure_keeps_earlier_results
    (r : response) (data sc found : value) (st : state) :
  fails r = true ->
  Get data "score" = Ok sc ->
  Get data "issues" = Ok found ->
  analyzeFile_settle r (fst (analyzeFile_settle (Body data) st))
  = (mkState (file st) sc (if Array_isArray found then found else VArr [])
       (activeFeature st) false,
     [Alert "Backend not reachable. Ensure FastAPI is running on port 8000."]).
Proof.
  intros Hr Hsc Hfound.
  rewrite (analyzeFile_settle_body data sc found st Hsc Hfound).
  rewrite analyzeFile_settle_fails by exact Hr. reflexivity.
Qed.

Lemma failure_keeps_earlier_results_witness :
  analyzeFile_settle FetchRejects
    (fst (analyzeFile_settle
            (Body (VObj [("score", VNum 20); ("issues", VArr [VStr "eval() used"])]))
            (mkState (VObj [("name", VStr "b.py")]) VNull (VArr []) VNull
               true)))
  = (mkState (VObj [("name", VStr "b.py")]) (VNum 20)
       (VArr [VStr "eval() used"]) VNull false,
     [Alert "Backend not reachable. Ensure FastAPI is running on port 8000."]).
Proof.
  apply (failure_keeps_earlier_results FetchRejects
           (VObj [("score", VNum 20); ("issues", VArr [VStr "eval() used"])])
           (VNum 20) (VArr [VStr "eval() used"])
           (mkState (VObj [("name", VStr "b.py")]) VNull (VArr []) VNull
              true));
    reflexivity.
Defined.

(** X19: the loading flag does not count requests: after two clicks on
    ANALYZE and one response, whatever it is, the flag is off although a
    request is still pending. *)
Theorem loading_off_while_pending (r : response) (pg : page) :
  ToBoolean (file (ui pg)) = true ->
  exists pg' : page,
    run [ClickAnalyze; ClickAnalyze; Respond r] pg = Some pg'
    /\ loading (ui pg') = false
    /\ pending pg' = S (pending pg).
Proof.
  intros Hfile. cbn [run step ui pending].
  rewrite (analyzeFile_submit_cleared (ui pg) Hfile). cbn [fst file].
  rewrite (analyzeFile_submit_cleared
             (mkState (file (ui pg)) VNull (VArr []) VNull true) Hfile).
  rewrite Hfile. cbn [fst file].
  eexists. split; [reflexivity|].
  cbn [ui pending]. rewrite analyzeFile_settle_state.
  split; reflexivity.
Qed.

Lemma loading_off_while_pending_witness :
  exists pg' : page,
    run [ClickAnalyze; ClickAnalyze; Respond JsonRejects]
      (mkPage (mkState (VObj [("name", VStr "a.py")]) VNull (VArr []) VNull
                 false) O)
    = Some pg'
    /\ loading (ui pg') = false
    /\ pending pg' = 1%nat.
Proof.
  apply (loading_off_while_pending JsonRejects
           (mkPage (mkState (VObj [("name", VStr "a.py")]) VNull (VArr [])
                      VNull false) O)).
  reflexivity.
Defined.
